(** * The ONNX serving request pipeline of [onnx_serve/api.py]

    A shallow embedding of [transform_to_numpy], [convert_to_onnx_input],
    [prediction_failed] and the [predict] view, with the properties of the
    request pipeline stated and proved (or refuted) against it.

    Python values are embedded as follows.
    - A decoded JSON value is a [json]; a Python [dict] is a [gmap].
    - A raised exception is the left injection of a sum; the input
      descriptors are shared by all requests, so every call returns them as
      it left them next to its result, and what a call does to them is a
      theorem about the call.
    - numpy, the inference engine, the user's request handler, [json.dumps]
      and [CortexException.__str__] are outside this file of the
      repository: they are the fields of [Externals] and [LocalCache]. *)

From stdpp Require Import gmap strings list fin_maps pretty.
From Stdlib Require Import ZArith.

Set Warnings "-register-all".
Open Scope string_scope.

(** ** Python values *)

Inductive json :=
| JNull
| JBool (b : bool)
| JInt (z : Z)
| JFloat (mantissa exponent : Z)
| JString (s : string)
| JArray (l : list json)
| JObject (m : gmap string json).

(** The exceptions that reach the handler ([Exception] and its subclasses). *)
Inductive exn :=
| ValueError (msg : string)
| TypeError (msg : string)
| KeyError (key : string)
| AttributeError (msg : string)
| CortexException (errors : list string)
| OtherException (cls msg : string).

(** [type(v).__name__] of a decoded JSON value. *)
Definition py_type_name (v : json) : string :=
  match v with
  | JNull => "NoneType"
  | JBool _ => "bool"
  | JInt _ => "int"
  | JFloat _ _ => "float"
  | JString _ => "str"
  | JArray _ => "list"
  | JObject _ => "dict"
  end.

Definition no_attribute (v : json) (attr : string) : exn :=
  AttributeError ("'" ++ py_type_name v ++ "' object has no attribute '" ++ attr ++ "'").

(** ** The error monad of a raising computation *)

Definition raising (A : Type) : Type := exn + A.

Definition raise {A} (e : exn) : raising A := inl e.
Definition ok {A} (a : A) : raising A := inr a.

Definition rbind {A B} (c : raising A) (k : A -> raising B) : raising B :=
  match c with
  | inl e => inl e
  | inr a => k a
  end.

Notation "'let?' x ':=' c 'in' k" := (rbind c (fun x => k))
  (at level 10, x name, c at level 100, k at level 200).

Fixpoint mapM {A B} (f : A -> raising B) (l : list A) : raising (list B) :=
  match l with
  | [] => ok []
  | x :: r =>
      let? y := f x in
      let? ys := mapM f r in
      ok (y :: ys)
  end.

(** ** What the file imports and does not define *)

(** The element type names numpy resolves, among those the type table
    holds: every one of them but ["string"]. *)
Definition np_understood (dtype : string) : bool :=
  bool_decide (dtype ∈ ["float16"; "float32"; "float64"; "int32"; "int8"; "uint8";
                        "int16"; "uint16"; "int64"; "uint64"; "bool"]).

Class Externals := {
  (** one element of a dense array *)
  elem : Type;
  (** numpy's conversion of one leaf of the payload to the element type
      named by [dtype]; it raises on a leaf the type cannot hold *)
  np_cast : string -> json -> raising elem;
  (** nothing converts to an element type numpy does not resolve *)
  np_cast_understood :
    forall dtype v e, np_cast dtype v = inr e -> np_understood dtype = true;
  (** the text of the [ValueError] numpy raises for this ragged value *)
  np_inhomogeneous : json -> string;
  (** an element as [ndarray.tolist] gives it back *)
  elem_tolist : elem -> json;
  (** [json.dumps] *)
  json_dumps : json -> string;
  (** the messages of a [CortexException] after [e.wrap] of further messages *)
  cortex_wrap : list string -> list string -> list string;
  (** [str(e)] of a [CortexException] holding these messages *)
  cortex_str : list string -> string;
}.

(** Modelled from the spec: [util.is_dict] of [cortex.lib.util], which is
    not in this file; the spec reads it as "is a mapping". *)
Definition is_dict (v : json) : bool :=
  match v with
  | JObject _ => true
  | _ => false
  end.

(** Modelled from the spec: [util.is_list] of [cortex.lib.util], which is
    not in this file; the spec reads it as "is a sequence". *)
Definition is_list (v : json) : bool :=
  match v with
  | JArray _ => true
  | _ => false
  end.

(** [v[key]] with a string key. *)
Definition py_getitem (v : json) (key : string) : raising json :=
  match v with
  | JObject m =>
      match m !! key with
      | Some x => ok x
      | None => raise (KeyError key)
      end
  | JArray _ => raise (TypeError "list indices must be integers or slices, not str")
  | JString _ => raise (TypeError "string indices must be integers")
  | _ => raise (TypeError ("'" ++ py_type_name v ++ "' object is not subscriptable"))
  end.

(** [key in v] for a [dict] [v]. *)
Definition py_contains (key : string) (v : json) : bool :=
  match v with
  | JObject m => bool_decide (is_Some (m !! key))
  | _ => false
  end.

(** The items a [for] loop over the list [v] visits. *)
Definition py_iter (v : json) : list json :=
  match v with
  | JArray l => l
  | _ => []
  end.

(** ** Input descriptors

    [input_metadata.name], [.type] and [.shape]; a dimension is a count
    or [None].  The descriptor is an object the request handlers share;
    [shape] is what reading its shape gives. *)

Record NodeArg := {
  name : string;
  type : string;
  shape : list (option N);
}.

Definition set_shape (d : NodeArg) (s : list (option N)) : NodeArg :=
  {| name := name d; type := type d; shape := s |}.

Definition onnx_to_np : gmap string string :=
  list_to_map
    [ ("tensor(float16)", "float16");
      ("tensor(float)", "float32");
      ("tensor(double)", "float64");
      ("tensor(int32)", "int32");
      ("tensor(int8)", "int8");
      ("tensor(uint8)", "uint8");
      ("tensor(int16)", "int16");
      ("tensor(uint16)", "uint16");
      ("tensor(int64)", "int64");
      ("tensor(uint64)", "uint64");
      ("tensor(bool)", "bool");
      ("tensor(string)", "string") ].

(** ** Dense arrays

    An array is its element type, its shape and its elements in row-major
    order.  The shape bookkeeping of [np.array] and [reshape] is written
    out; the conversion of the leaves is [np_cast]. *)

Section Arrays.
Context `{Externals}.

Record ndarray := {
  arr_dtype : string;
  arr_shape : list N;
  arr_data : list elem;
}.

Definition product (s : list N) : N := foldr N.mul 1%N s.

(** The shape of a nested sequence, [None] when it is ragged. *)
Fixpoint np_dims (v : json) : option (list N) :=
  match v with
  | JArray l =>
      match map np_dims l with
      | [] => Some [0%N]
      | Some s :: ds =>
          if forallb (fun d => bool_decide (d = Some s)) ds
          then Some (N.of_nat (length l) :: s)
          else None
      | None :: _ => None
      end
  | _ => Some []
  end.

Fixpoint np_leaves (v : json) : list json :=
  match v with
  | JArray l => concat (map np_leaves l)
  | _ => [v]
  end.

(** [np.array(v, dtype=dtype)]: the element type is resolved first, then
    the shape of the value is found, then its leaves are converted. *)
Definition np_array (v : json) (dtype : string) : raising ndarray :=
  if np_understood dtype then
    match np_dims v with
    | None => raise (ValueError (np_inhomogeneous v))
    | Some s =>
        let? data := mapM (np_cast dtype) (np_leaves v) in
        ok {| arr_dtype := dtype; arr_shape := s; arr_data := data |}
    end
  else raise (TypeError ("data type '" ++ dtype ++ "' not understood")).

(** A shape as numpy prints it: [(1,3)], [(3,)], [()]. *)
Definition shape_text (dims : list N) : string :=
  match dims with
  | [n] => "(" ++ pretty n ++ ",)"
  | _ => "(" ++ String.concat "," (pretty <$> dims) ++ ")"
  end.

Definition cannot_reshape (size : nat) (dims : list N) : exn :=
  ValueError ("cannot reshape array of size " ++ pretty size
              ++ " into shape " ++ shape_text dims).

(** [a.reshape(target_shape)]: a [None] left in the shape is not an
    integer, and the element count has to be the product of the shape. *)
Definition reshape (a : ndarray) (target_shape : list (option N)) : raising ndarray :=
  match mapM (fun d : option N =>
                match d with
                | Some n => ok n
                | None => raise (TypeError "'NoneType' object cannot be interpreted as an integer")
                end) target_shape with
  | inl e => raise e
  | inr dims =>
      if (N.of_nat (length (arr_data a)) =? product dims)%N
      then ok {| arr_dtype := arr_dtype a; arr_shape := dims; arr_data := arr_data a |}
      else raise (cannot_reshape (length (arr_data a)) dims)
  end.

(** [count] consecutive slices of [size] elements. *)
Fixpoint chunks {A} (size count : nat) (l : list A) : list (list A) :=
  match count with
  | O => []
  | S c => take size l :: chunks size c (drop size l)
  end.

Fixpoint nest (s : list N) (data : list json) : json :=
  match s with
  | [] => default JNull (head data)
  | n :: r => JArray (map (nest r) (chunks (N.to_nat (product r)) (N.to_nat n) data))
  end.

(** [a.tolist()] *)
Definition tolist (a : ndarray) : json :=
  nest (arr_shape a) (map elem_tolist (arr_data a)).

(** What the variable [sample] of the view, and so [input_pyobj], can
    hold: a decoded JSON value, or an array that [pre_inference] made. *)
Inductive pyobj :=
| FromJson (v : json)
| Ndarray (a : ndarray).

(** [type(o).__name__] *)
Definition obj_type_name (o : pyobj) : string :=
  match o with
  | FromJson v => py_type_name v
  | Ndarray _ => "numpy.ndarray"
  end.

Definition obj_no_attribute (o : pyobj) (attr : string) : exn :=
  AttributeError ("'" ++ obj_type_name o ++ "' object has no attribute '" ++ attr ++ "'").

(** ** [transform_to_numpy] *)

(** [for idx, dim in enumerate(target_shape): if dim is None:
    target_shape[idx] = 1], a write into the list at each index. *)
Definition resolve_step (target_shape : list (option N)) (idx : nat) : list (option N) :=
  match target_shape !! idx with
  | Some None => <[idx := Some 1%N]> target_shape
  | _ => target_shape
  end.

Definition resolve_loop (target_shape : list (option N)) : list (option N) :=
  fold_left resolve_step (seq 0 (length target_shape)) target_shape.

(** The call returns the descriptor as it left it, and the array or the
    exception.  The descriptors are the engine's [NodeArg]s
    ([sess.get_inputs()]), whose [shape] attribute builds a new list each
    time it is read: [target_shape] is such a list, the loop writes into
    it, and the descriptor has no part in the write. *)
Definition transform_to_numpy (input_pyobj : pyobj) (input_metadata : NodeArg)
  : NodeArg * raising ndarray :=
  match onnx_to_np !! type input_metadata with
  | None => (input_metadata, raise (KeyError (type input_metadata)))
  | Some target_dtype =>
      let target_shape := shape input_metadata in
      let target_shape := resolve_loop target_shape in
      (input_metadata,
       let? np_arr :=
         match input_pyobj with
         | FromJson v => np_array v target_dtype
         | Ndarray a => ok a
         end in
       reshape np_arr target_shape)
  end.

End Arrays.

(** A decoded JSON value where any value of the view is expected. *)
#[warning="-uniform-inheritance"]
Coercion FromJson : json >-> pyobj.

(** ** [convert_to_onnx_input] *)

Section Dispatch.
Context `{Externals}.

(** [util.is_dict(sample)] *)
Definition sample_is_mapping (sample : pyobj) : bool :=
  match sample with
  | FromJson v => is_dict v
  | Ndarray _ => false
  end.

(** [sample.get(key)]: the value, or [None] when the key is absent;
    only a [dict] has the method. *)
Definition sample_get (sample : pyobj) (key : string) : raising json :=
  match sample with
  | FromJson (JObject m) => ok (default JNull (m !! key))
  | _ => raise (obj_no_attribute sample "get")
  end.

(** [sample[key]] with a string key. *)
Definition sample_getitem (sample : pyobj) (key : string) : raising json :=
  match sample with
  | FromJson v => py_getitem v key
  | Ndarray _ =>
      raise (OtherException "IndexError"
               "only integers, slices (`:`), ellipsis (`...`), numpy.newaxis (`None`) and integer or boolean arrays are valid indices")
  end.

(** [sample.is_dict(input_metadata)]: a method looked up on the sample
    itself.  Neither the types a JSON value decodes to nor the array type
    has an attribute [is_dict], so the lookup raises before anything is
    called. *)
Definition sample_is_dict (sample : pyobj) (input_metadata : NodeArg) : raising bool :=
  raise (obj_no_attribute sample "is_dict").

Definition missing_key (key : string) : exn :=
  ValueError ("sample should be a dict containing key: " ++ key).

Definition missing_keys (expected_keys : list string) : exn :=
  ValueError ("sample should be a dict containing keys: " ++ String.concat ", " expected_keys).

(** The [for input_metadata in input_metadata_list] loop of the [else]
    branch: [visited] are the descriptors already passed, as the loop
    left them, [rest] those still to come. *)
Fixpoint convert_loop (sample : pyobj) (expected_keys : list string)
    (visited rest : list NodeArg) (input_dict : gmap string ndarray)
  : list NodeArg * raising (gmap string ndarray) :=
  match rest with
  | [] => (visited, ok input_dict)
  | input_metadata :: rest' =>
      match sample_is_dict sample input_metadata with
      | inl e => ((visited ++ rest)%list, raise e)
      | inr false => ((visited ++ rest)%list, raise (missing_keys expected_keys))
      | inr true =>
          match sample_get sample (name input_metadata) with
          | inl e => ((visited ++ rest)%list, raise e)
          | inr JNull => ((visited ++ rest)%list, raise (missing_key (name input_metadata)))
          | inr _ =>
              let '(input_metadata', r) :=
                transform_to_numpy sample input_metadata in
              match r with
              | inl e => ((visited ++ input_metadata' :: rest')%list, raise e)
              | inr np_arr =>
                  convert_loop sample expected_keys (visited ++ [input_metadata'])%list rest'
                    (<[name input_metadata := np_arr]> input_dict)
              end
          end
      end
  end.

(** The descriptors as the call left them, and [input_dict] or the
    exception. *)
Definition convert_to_onnx_input (sample : pyobj) (input_metadata_list : list NodeArg)
  : list NodeArg * raising (gmap string ndarray) :=
  let input_dict : gmap string ndarray := ∅ in
  match input_metadata_list with
  | [input_metadata] =>
      if sample_is_mapping sample then
        match sample_get sample (name input_metadata) with
        | inl e => (input_metadata_list, raise e)
        | inr JNull => (input_metadata_list, raise (missing_key (name input_metadata)))
        | inr _ =>
            match sample_getitem sample (name input_metadata) with
            | inl e => (input_metadata_list, raise e)
            | inr v =>
                let '(input_metadata', r) := transform_to_numpy (FromJson v) input_metadata in
                ([input_metadata'],
                 let? np_arr := r in ok (<[name input_metadata := np_arr]> input_dict))
            end
        end
      else
        let '(input_metadata', r) := transform_to_numpy sample input_metadata in
        ([input_metadata'],
         let? np_arr := r in ok (<[name input_metadata := np_arr]> input_dict))
  | _ =>
      convert_loop sample (name <$> input_metadata_list) [] input_metadata_list input_dict
  end.

End Dispatch.

(** ** The request handler *)

Inductive body :=
| Text (s : string)
| Json (v : json).

(** What a view returns: the body and the status. *)
Record response := {
  resp_body : body;
  resp_status : Z;
}.

Definition HTTP_200_OK : Z := 200.
Definition HTTP_400_BAD_REQUEST : Z := 400.
Definition HTTP_406_NOT_ACCEPTABLE : Z := 406.

(** [str(e)] *)
Definition exn_str `{Externals} (e : exn) : string :=
  match e with
  | ValueError msg => msg
  | TypeError msg => msg
  | KeyError key => "'" ++ key ++ "'"
  | AttributeError msg => msg
  | CortexException errors => cortex_str errors
  | OtherException _ msg => msg
  end.

(** [len(v)] *)
Definition py_len (v : json) : raising nat :=
  match v with
  | JArray l => ok (length l)
  | JString s => ok (String.length s)
  | JObject m => ok (size m)
  | _ => raise (TypeError ("object of type '" ++ py_type_name v ++ "' has no len()"))
  end.

Section Serving.
Context `{Externals}.

(** One output of [sess.run]: an [np.ndarray], or a value of another
    type. *)
Inductive model_output :=
| OutArray (a : ndarray)
| OutOther (v : json).

(** The loaded model: [run(output_names, input_feed)]. *)
Record InferenceSession := {
  run : list string -> gmap string ndarray -> raising (list model_output);
}.

(** [api["name"]] and [api["id"]] *)
Record Api := {
  api_name : string;
  api_id : string;
}.

(** The user's request handler; a field is [None] when
    [util.has_function] does not find the function.  What
    [pre_inference] returns becomes the sample: a JSON value, or an
    array, which [transform_to_numpy] takes as it is. *)
Record RequestHandler := {
  pre_inference : option (json -> list NodeArg -> raising pyobj);
  post_inference : option (json -> list NodeArg -> raising json);
}.

(** [local_cache], but for ["input_metadata"]: the input descriptors are
    the state the handler is run in. *)
Record LocalCache := {
  api : Api;
  sess : InferenceSession;
  output_metadata : list NodeArg;
  request_handler : option RequestHandler;
}.

(** [prediction_failed] on a decoded JSON value, for which [json.dumps]
    returns; [if reason:] fails for [None] and for the empty string. *)
Definition prediction_failed (sample : json) (reason : option string) : response :=
  let message := "prediction failed for sample: " ++ json_dumps sample in
  let message :=
    match reason with
    | None | Some "" => message
    | Some r => message ++ " (" ++ r ++ ")"
    end in
  {| resp_body := Text message; resp_status := HTTP_406_NOT_ACCEPTABLE |}.

(** [prediction_failed(sample, reason)] on whatever the variable [sample]
    holds: [json.dumps] of an array raises, before any message is made. *)
Definition sample_failed (sample : pyobj) (reason : option string) : raising response :=
  match sample with
  | FromJson v => ok (prediction_failed v reason)
  | Ndarray _ => raise (TypeError "Object of type ndarray is not JSON serializable")
  end.

(** The body of [for model_output in model_outputs]. *)
Definition marshal_step (result : list json) (output : model_output) : list json :=
  match output with
  | OutArray a => (result ++ [tolist a])%list
  | OutOther v => (result ++ [v])%list
  end.

Definition marshal (model_outputs : list model_output) : list json :=
  fold_left marshal_step model_outputs [].

Variable lc : LocalCache.

(** [request_handler.pre_inference(sample, input_metadata)] when the
    handler has the function, the sample itself otherwise. *)
Definition pre_hook (input_metadata : list NodeArg) (sample : json) : raising pyobj :=
  match request_handler lc with
  | Some {| pre_inference := Some f |} => f sample input_metadata
  | _ => ok (FromJson sample)
  end.

Definition post_hook (result : json) : raising json :=
  match request_handler lc with
  | Some {| post_inference := Some f |} => f result (output_metadata lc)
  | _ => ok result
  end.

(** The [try] block from [convert_to_onnx_input] on: the descriptors as
    it left them, and [prediction] or the exception. *)
Definition infer_sample (input_metadata : list NodeArg) (sample : pyobj)
  : list NodeArg * raising json :=
  let '(input_metadata, converted) := convert_to_onnx_input sample input_metadata in
  (input_metadata,
   let? inference_input := converted in
   let? model_outputs := run (sess lc) [] inference_input in
   let result := JArray (marshal model_outputs) in
   let? result := post_hook result in
   ok (JObject {[ "prediction" := result ]})).

(** The [try] block for one sample.  It gives the descriptors as it
    left them and either [prediction], or the exception together with
    what the variable [sample] was bound to when it was raised: the raw
    sample if [pre_inference] raised, what [pre_inference] returned
    afterwards. *)
Definition try_sample (input_metadata : list NodeArg) (sample : json)
  : list NodeArg * (pyobj * exn + json) :=
  match pre_hook input_metadata sample with
  | inl e => (input_metadata, inl (FromJson sample, e))
  | inr sample =>
      let '(input_metadata, r) := infer_sample input_metadata sample in
      (input_metadata,
       match r with
       | inl e => inl (sample, e)
       | inr prediction => inr prediction
       end)
  end.

(** [str(e)] as the [except] clause that catches [e] passes it on: a
    [CortexException] is wrapped first.  [i] counts from 0. *)
Definition reported (i : nat) (e : exn) : string :=
  match e with
  | CortexException errors =>
      cortex_str (cortex_wrap errors ["error"; "sample " ++ pretty (i + 1)%nat])
  | _ => exn_str e
  end.

(** The two [except] clauses: the answer, or the exception that
    [prediction_failed] raised in the clause and that leaves the view. *)
Definition on_exception (i : nat) (sample : pyobj) (e : exn) : raising response :=
  sample_failed sample (Some (reported i e)).

(** [for i, sample in enumerate(payload["samples"])], from index [i]
    on, with the [predictions] gathered so far: the loop ends in an
    [except] clause, with its answer or its exception, or gets through. *)
Fixpoint predict_loop (input_metadata : list NodeArg) (i : nat) (samples : list json)
    (predictions : list json) : list NodeArg * (raising response + list json) :=
  match samples with
  | [] => (input_metadata, inr predictions)
  | sample :: samples' =>
      match try_sample input_metadata sample with
      | (input_metadata, inl (sample, e)) => (input_metadata, inl (on_exception i sample e))
      | (input_metadata, inr prediction) =>
          predict_loop input_metadata (S i) samples' (predictions ++ [prediction])%list
      end
  end.

(** The view.  [get_json] is what [request.get_json()] did: raise, or
    give the decoded body.  The result is [raise e] when [e] leaves the
    view unhandled.  Logging calls are left out, but for the argument of
    the call in line 141, which is evaluated where the source has it. *)
Definition predict (input_metadata : list NodeArg) (get_json : raising json)
  : list NodeArg * raising response :=
  match get_json with
  | inl _ =>
      (input_metadata,
       ok {| resp_body := Text "Malformed JSON"; resp_status := HTTP_400_BAD_REQUEST |})
  | inr payload =>
      if negb (is_dict payload) || negb (py_contains "samples" payload) then
        (input_metadata,
         ok (prediction_failed payload
               (Some "top level `samples` key not found in request")))
      else
        match (let? samples := py_getitem payload "samples" in py_len samples) with
        | inl e => (input_metadata, raise e)
        | inr _ =>
            match py_getitem payload "samples" with
            | inl e => (input_metadata, raise e)
            | inr samples =>
                if negb (is_list samples) then
                  (input_metadata,
                   ok (prediction_failed payload
                         (Some "expected the value of key `samples` to be a list of json objects")))
                else
                  match predict_loop input_metadata 0 (py_iter samples) [] with
                  | (input_metadata, inl failed) => (input_metadata, failed)
                  | (input_metadata, inr predictions) =>
                      let response : gmap string json :=
                        <["resource_id" := JString (api_id (api lc))]>
                          (<["predictions" := JArray predictions]> ∅) in
                      (input_metadata,
                       ok {| resp_body := Json (JObject response);
                             resp_status := HTTP_200_OK |})
                  end
            end
        end
  end.

End Serving.

(** ** A small instance to run the handler on

    Elements are kept as the JSON numbers they were read from; a leaf that
    is not a number or a boolean does not convert.  The engine is the
    identity model: it gives back the arrays it was fed. *)

Module Sample.

Definition cast (dtype : string) (v : json) : raising json :=
  if np_understood dtype then
    match v with
    | JInt _ | JFloat _ _ | JBool _ => ok v
    | _ => raise (TypeError ("cannot convert '" ++ py_type_name v ++ "' to " ++ dtype))
    end
  else raise (TypeError ("data type '" ++ dtype ++ "' not understood")).

Definition cast_understood (dtype : string) (v e : json) :
  cast dtype v = inr e -> np_understood dtype = true.
Proof. unfold cast. destruct (np_understood dtype); [reflexivity|discriminate]. Defined.

#[export] Instance externals : Externals := {|
  elem := json;
  np_cast := cast;
  np_cast_understood := cast_understood;
  np_inhomogeneous := fun _ => "setting an array element with a sequence.";
  elem_tolist := fun v => v;
  json_dumps := fun v => "<" ++ py_type_name v ++ ">";
  cortex_wrap := fun errors messages => (messages ++ errors)%list;
  cortex_str := String.concat ": ";
|}.

Definition array (dtype : string) (s : list N) (data : list json) : @ndarray externals :=
  @Build_ndarray externals dtype s data.

Definition identity : InferenceSession :=
  {| run := fun _ inputs => ok (OutArray <$> (map_to_list inputs).*2) |}.

Definition cache : LocalCache :=
  {| api := {| api_name := "iris"; api_id := "a1b2" |};
     sess := identity;
     output_metadata := [];
     request_handler := None |}.

(** A request handler whose [pre_inference] returns the array
    [np.array([1, 2])] for every sample. *)
Definition pair_handler : RequestHandler :=
  {| pre_inference :=
       Some (fun _ _ => ok (Ndarray (array "float32" [2%N] [JInt 1; JInt 2])));
     post_inference := None |}.

Definition pair_cache : LocalCache :=
  {| api := {| api_name := "iris"; api_id := "a1b2" |};
     sess := identity;
     output_metadata := [];
     request_handler := Some pair_handler |}.

Definition x : NodeArg :=
  {| name := "x"; type := "tensor(float)"; shape := [None; Some 3%N] |}.

Definition y : NodeArg :=
  {| name := "y"; type := "tensor(int64)"; shape := [Some 1%N] |}.

Definition vec (l : list Z) : json := JArray (JInt <$> l).

End Sample.

(** A dimension with [None] read as 1: what the spec calls resolving an
    unknown dimension. *)
Definition fill (dim : option N) : option N := Some (default 1%N dim).

(** What the spec asks of dispatch for a model with the one input [d]: the
    descriptor as coercion left it, and the array bound to the input's name,
    or the exception of the coercion. *)
Definition sole_input `{Externals} (d : NodeArg) (coerced : NodeArg * raising ndarray)
  : list NodeArg * raising (gmap string ndarray) :=
  ([coerced.1], let? np_arr := coerced.2 in ok {[ name d := np_arr ]}).

(** What an engine output becomes in [result]. *)
Definition marshalled `{Externals} (output : model_output) : json :=
  match output with
  | OutArray a => tolist a
  | OutOther v => v
  end.

(** The [predictions] entry of a response body, if it has one. *)
Definition response_predictions (r : response) : option json :=
  match resp_body r with
  | Json (JObject m) => m !! "predictions"
  | _ => None
  end.

(** The input descriptors after the [try] blocks of [samples] have run in
    turn, starting from [input_metadata]. *)
Definition descriptors_after `{Externals} (lc : LocalCache)
    (input_metadata : list NodeArg) (samples : list json) : list NodeArg :=
  fold_left (fun st sample => (try_sample lc st sample).1) samples input_metadata.

(** The descriptor with every unknown dimension read as 1. *)
Definition settle (d : NodeArg) : NodeArg := set_shape d (fill <$> shape d).

(** [d'] is [d] as loaded, or [d] with 1 written for every unknown
    dimension. *)
Definition written_from (d d' : NodeArg) : Prop := d' = d ∨ d' = settle d.

(** * Properties *)

Open Scope list_scope.

(** ** Tensor coercion *)

Section CoercionFacts.
Context `{Externals}.

Lemma resolve_step_at (visited : list (option N)) dim rest :
  resolve_step (visited ++ dim :: rest) (length visited) = visited ++ fill dim :: rest.
Proof.
  unfold resolve_step.
  rewrite list_lookup_middle by reflexivity.
  destruct dim as [n|]; [reflexivity|].
  rewrite insert_app_r_alt by lia.
  replace (length visited - length visited)%nat with 0%nat by lia.
  reflexivity.
Qed.

Lemma resolve_loop_from (rest visited : list (option N)) :
  fold_left resolve_step (seq (length visited) (length rest)) (visited ++ rest)
  = visited ++ (fill <$> rest).
Proof.
  revert visited. induction rest as [|dim rest IH]; intros visited; [reflexivity|].
  cbn [length seq fold_left fmap list_fmap].
  rewrite resolve_step_at.
  specialize (IH (visited ++ [fill dim])).
  rewrite length_app, Nat.add_1_r, <- !app_assoc in IH.
  exact IH.
Qed.

(** The in-place loop is the map that reads every [None] as 1. *)
Lemma resolve_loop_fill (s : list (option N)) : resolve_loop s = fill <$> s.
Proof. exact (resolve_loop_from s []). Qed.

Lemma resolve_loop_idempotent (s : list (option N)) :
  resolve_loop (resolve_loop s) = resolve_loop s.
Proof.
  rewrite !resolve_loop_fill, <- list_fmap_compose.
  apply list_fmap_ext. intros _ [n|] _; reflexivity.
Qed.

Lemma mapM_dims_fill (s : list (option N)) :
  mapM (fun d : option N =>
          match d with
          | Some n => ok n
          | None => raise (TypeError "'NoneType' object cannot be interpreted as an integer")
          end) (fill <$> s)
  = ok (default 1%N <$> s).
Proof.
  induction s as [|d s IH]; [reflexivity|].
  cbn [fmap list_fmap mapM fill]. cbn [fmap list_fmap fill] in IH.
  rewrite IH. reflexivity.
Qed.

Lemma reshape_shape (a a' : ndarray) (s : list (option N)) :
  reshape a (fill <$> s) = inr a' → arr_shape a' = default 1%N <$> s.
Proof.
  unfold reshape. rewrite mapM_dims_fill. unfold ok.
  destruct (_ =? _)%N; [|discriminate].
  intros [= <-]. reflexivity.
Qed.

(** What the call does to the descriptor it is given: nothing, on each
    of its paths. *)
Lemma transform_to_numpy_descriptor (input_pyobj : pyobj) (d : NodeArg) :
  (transform_to_numpy input_pyobj d).1 = d.
Proof. unfold transform_to_numpy. by destruct (onnx_to_np !! type d). Qed.

Lemma transform_to_numpy_shape (input_pyobj : pyobj) (d : NodeArg) (a : ndarray) :
  (transform_to_numpy input_pyobj d).2 = inr a → arr_shape a = default 1%N <$> shape d.
Proof.
  unfold transform_to_numpy.
  destruct (onnx_to_np !! type d) as [dt|]; [|discriminate].
  cbn [snd]. cbn zeta. rewrite resolve_loop_fill.
  destruct input_pyobj as [v|a0]; cbn [rbind].
  - destruct (np_array v dt) as [e|a1]; [discriminate|]. cbn. apply reshape_shape.
  - cbn. apply reshape_shape.
Qed.

(** The array (or the exception) of a call does not depend on the calls
    made before it on the same descriptor. *)
Lemma transform_to_numpy_stable (input_pyobj earlier : pyobj) (d : NodeArg) :
  (transform_to_numpy input_pyobj (transform_to_numpy earlier d).1).2
  = (transform_to_numpy input_pyobj d).2.
Proof. by rewrite transform_to_numpy_descriptor. Qed.

End CoercionFacts.

(** C7. Coercion reads every unknown dimension as 1: the loop over the
    shape is the map that puts 1 for each [None], and an array that
    coercion returns has that shape.  With the declared shape [[None, 3]]
    and a known element type that holds 1, 2 and 3, the value [[1,2,3]]
    is coerced, and to an array of shape [[1,3]]. *)
Theorem unknown_dimensions_resolve_to_one `{Externals} :
  (∀ s : list (option N), resolve_loop s = fill <$> s)
  ∧ (∀ (input_pyobj : pyobj) (d : NodeArg) (a : ndarray),
       (transform_to_numpy input_pyobj d).2 = inr a →
       arr_shape a = default 1%N <$> shape d)
  ∧ (∀ (nm ty dt : string) (e1 e2 e3 : elem),
       onnx_to_np !! ty = Some dt →
       np_cast dt (JInt 1) = inr e1 →
       np_cast dt (JInt 2) = inr e2 →
       np_cast dt (JInt 3) = inr e3 →
       (transform_to_numpy (FromJson (JArray [JInt 1; JInt 2; JInt 3]))
          {| name := nm; type := ty; shape := [None; Some 3%N] |}).2
       = inr {| arr_dtype := dt; arr_shape := [1%N; 3%N]; arr_data := [e1; e2; e3] |}).
Proof.
  split; [exact resolve_loop_fill|].
  split; [exact transform_to_numpy_shape|].
  intros nm ty dt e1 e2 e3 Hty H1 H2 H3.
  unfold transform_to_numpy. cbn [type shape]. rewrite Hty. cbn [snd].
  unfold np_array. rewrite (np_cast_understood _ _ _ H1).
  cbn [np_dims np_leaves map concat app forallb mapM rbind length].
  rewrite H1. cbn [rbind]. rewrite H2. cbn [rbind]. rewrite H3. reflexivity.
Qed.

Lemma unknown_dimensions_resolve_to_one_witness :
  (@transform_to_numpy Sample.externals (FromJson (Sample.vec [1; 2; 3]%Z)) Sample.x).2
  = inr (Sample.array "float32" [1%N; 3%N] [JInt 1; JInt 2; JInt 3])
  ∧ arr_shape (Sample.array "float32" [1%N; 3%N] [JInt 1; JInt 2; JInt 3])
    = default 1%N <$> shape Sample.x.
Proof.
  split.
  - apply (proj2 (proj2 (@unknown_dimensions_resolve_to_one Sample.externals)));
      reflexivity.
  - apply (proj1 (proj2 (@unknown_dimensions_resolve_to_one Sample.externals))
             (FromJson (Sample.vec [1; 2; 3]%Z)) Sample.x).
    reflexivity.
Defined.

(** C1. Coercion leaves the descriptor it is given as it found it, for
    every value, JSON or array, and on every path, a raised exception
    included: the name, the type and the shape sequence read from the
    descriptor after the call are those read before it, unknown
    dimensions still unknown, although the array returned has 1 in their
    place. *)
Theorem coercion_leaves_descriptor_unchanged `{Externals}
    (input_pyobj : pyobj) (d : NodeArg) :
  (transform_to_numpy input_pyobj d).1 = d
  ∧ shape (transform_to_numpy input_pyobj d).1 = shape d
  ∧ (∀ i, shape d !! i = Some None →
       shape (transform_to_numpy input_pyobj d).1 !! i = Some None)
  ∧ (∀ later : pyobj,
       transform_to_numpy later (transform_to_numpy input_pyobj d).1
       = transform_to_numpy later d).
Proof.
  pose proof (transform_to_numpy_descriptor input_pyobj d) as Hd.
  rewrite Hd. by repeat split.
Qed.

Lemma coercion_leaves_descriptor_unchanged_witness :
  shape (@transform_to_numpy Sample.externals (FromJson (Sample.vec [1; 2; 3]%Z)) Sample.x).1
    !! 0%nat = Some None.
Proof.
  apply (proj1 (proj2 (proj2 (@coercion_leaves_descriptor_unchanged Sample.externals
                                (FromJson (Sample.vec [1; 2; 3]%Z)) Sample.x)))).
  reflexivity.
Defined.

(** ** Dispatch *)

Section DispatchFacts.
Context `{Externals}.

(** The loop of the [else] branch stops in its first round, on the
    lookup of [is_dict] on the sample, whatever the sample is. *)
Lemma convert_loop_raises (sample : pyobj) expected_keys visited d rest input_dict :
  convert_loop sample expected_keys visited (d :: rest) input_dict
  = (visited ++ d :: rest, raise (obj_no_attribute sample "is_dict")).
Proof. reflexivity. Qed.

Lemma convert_multi_raises (sample : pyobj) (d1 d2 : NodeArg) (rest : list NodeArg) :
  convert_to_onnx_input sample (d1 :: d2 :: rest)
  = (d1 :: d2 :: rest, raise (obj_no_attribute sample "is_dict")).
Proof. reflexivity. Qed.

Lemma convert_single_whole (sample : pyobj) (d : NodeArg) :
  sample_is_mapping sample = false →
  convert_to_onnx_input sample [d] = sole_input d (transform_to_numpy sample d).
Proof.
  intros Hbare. unfold convert_to_onnx_input, sole_input. rewrite Hbare.
  destruct (transform_to_numpy sample d) as [d' r]. reflexivity.
Qed.

Lemma convert_single_bare (sample : json) (d : NodeArg) :
  is_dict sample = false →
  convert_to_onnx_input sample [d] = sole_input d (transform_to_numpy (FromJson sample) d).
Proof. apply (convert_single_whole (FromJson sample)). Qed.

Lemma convert_single_present (m : gmap string json) (d : NodeArg) (v : json) :
  m !! name d = Some v → v ≠ JNull →
  convert_to_onnx_input (JObject m) [d] = sole_input d (transform_to_numpy (FromJson v) d).
Proof.
  intros Hv Hnull. unfold convert_to_onnx_input, sole_input.
  cbn [sample_is_mapping is_dict sample_get sample_getitem py_getitem].
  rewrite Hv. cbn [default ok].
  destruct (transform_to_numpy (FromJson v) d) as [d' r].
  destruct v; try reflexivity. congruence.
Qed.

Lemma convert_single_null (m : gmap string json) (d : NodeArg) :
  default JNull (m !! name d) = JNull →
  convert_to_onnx_input (JObject m) [d] = ([d], raise (missing_key (name d))).
Proof.
  intros Hv. unfold convert_to_onnx_input.
  cbn [sample_is_mapping is_dict sample_get]. rewrite Hv. reflexivity.
Qed.

End DispatchFacts.

(** C2 (the code departs from it). With the two inputs [x] and [y], a
    sample that is not a mapping, and a mapping without the key [y], are to
    be refused with the error that names the expected keys.  Both are
    refused with an [AttributeError] instead: the loop asks the sample
    itself for [is_dict]. *)
Theorem multi_input_refusal_is_attribute_error `{Externals} :
  convert_to_onnx_input (JInt 5) [Sample.x; Sample.y]
  = ([Sample.x; Sample.y], raise (AttributeError "'int' object has no attribute 'is_dict'"))
  ∧ convert_to_onnx_input (JObject {[ "x" := Sample.vec [1; 2; 3]%Z ]}) [Sample.x; Sample.y]
    = ([Sample.x; Sample.y], raise (AttributeError "'dict' object has no attribute 'is_dict'"))
  ∧ missing_keys (name <$> [Sample.x; Sample.y])
    = ValueError "sample should be a dict containing keys: x, y".
Proof. repeat split. Qed.

(** C3 (the code departs from it). With the two inputs [x] and [y], a
    mapping that holds both names is to be coerced key by key.  The call
    raises before it coerces anything and returns no mapping. *)
Theorem multi_input_complete_sample_raises `{Externals} :
  convert_to_onnx_input
    (JObject (<["x" := Sample.vec [1; 2; 3]%Z]> {[ "y" := Sample.vec [7]%Z ]}))
    [Sample.x; Sample.y]
  = ([Sample.x; Sample.y], raise (AttributeError "'dict' object has no attribute 'is_dict'")).
Proof. reflexivity. Qed.

(** C6, as the code has it. For a model with the one input [d]: a sample
    that is not a mapping is coerced whole and bound to the name of [d]; a
    mapping that binds the name to a value other than null has that value
    coerced and bound to the name; a mapping that lacks the name, or binds
    it to null, is refused with the error naming the key.  An exception of
    the coercion is the exception of the call. *)
Theorem single_input_dispatch `{Externals} (d : NodeArg) (sample : json) :
  (is_dict sample = false →
     convert_to_onnx_input sample [d] = sole_input d (transform_to_numpy (FromJson sample) d))
  ∧ (∀ (m : gmap string json) (v : json),
       sample = JObject m → m !! name d = Some v → v ≠ JNull →
       convert_to_onnx_input sample [d] = sole_input d (transform_to_numpy (FromJson v) d))
  ∧ (∀ m : gmap string json,
       sample = JObject m → m !! name d = None ∨ m !! name d = Some JNull →
       convert_to_onnx_input sample [d] = ([d], raise (missing_key (name d)))).
Proof.
  split; [apply convert_single_bare|]. split.
  - intros m v -> Hv Hnull. by apply convert_single_present.
  - intros m -> Hv. apply convert_single_null. by destruct Hv as [-> | ->].
Qed.

Lemma single_input_dispatch_witness :
  @convert_to_onnx_input Sample.externals (Sample.vec [1; 2; 3]%Z) [Sample.x]
  = sole_input Sample.x (transform_to_numpy (FromJson (Sample.vec [1; 2; 3]%Z)) Sample.x)
  ∧ @convert_to_onnx_input Sample.externals
      (JObject {[ "x" := Sample.vec [1; 2; 3]%Z ]}) [Sample.x]
    = sole_input Sample.x (transform_to_numpy (FromJson (Sample.vec [1; 2; 3]%Z)) Sample.x)
  ∧ @convert_to_onnx_input Sample.externals (JObject ∅) [Sample.x]
    = ([Sample.x], raise (missing_key "x")).
Proof.
  split; [|split].
  - apply (proj1 (@single_input_dispatch Sample.externals Sample.x _)). reflexivity.
  - apply (proj1 (proj2 (@single_input_dispatch Sample.externals Sample.x _))
             {[ "x" := Sample.vec [1; 2; 3]%Z ]}); [reflexivity|reflexivity|discriminate].
  - apply (proj2 (proj2 (@single_input_dispatch Sample.externals Sample.x _)) ∅);
      [reflexivity|left; reflexivity].
Defined.

(** C6 as the spec has it fails where the key is bound to null: the
    mapping contains the name of the sole input, and the call raises the
    missing-key error, which is not the coercion of the key's value. *)
Lemma single_input_null_value_not_coerced :
  @convert_to_onnx_input Sample.externals (JObject {[ "y" := JNull ]}) [Sample.y]
  = ([Sample.y], raise (ValueError "sample should be a dict containing key: y"))
  ∧ @convert_to_onnx_input Sample.externals (JObject {[ "y" := JNull ]}) [Sample.y]
    ≠ sole_input Sample.y (transform_to_numpy (FromJson JNull) Sample.y).
Proof. split; [reflexivity|]. vm_compute. discriminate. Qed.

(** C10. For a model with the one input [d], a mapping that binds the
    name of [d] to null is refused with the missing-key error, exactly as
    the same mapping without that key is: nothing is coerced. *)
Theorem null_value_counts_as_missing `{Externals} (d : NodeArg) (m : gmap string json) :
  m !! name d = Some JNull →
  convert_to_onnx_input (JObject m) [d] = ([d], raise (missing_key (name d)))
  ∧ convert_to_onnx_input (JObject (delete (name d) m)) [d]
    = convert_to_onnx_input (JObject m) [d].
Proof.
  intros Hv.
  assert (convert_to_onnx_input (JObject m) [d] = ([d], raise (missing_key (name d)))) as E.
  { apply convert_single_null. by rewrite Hv. }
  split; [exact E|]. rewrite E.
  apply convert_single_null. by rewrite lookup_delete_eq.
Qed.

Lemma null_value_counts_as_missing_witness :
  @convert_to_onnx_input Sample.externals (JObject {[ "x" := JNull ]}) [Sample.x]
  = ([Sample.x], raise (missing_key "x"))
  ∧ @convert_to_onnx_input Sample.externals (JObject (delete "x" {[ "x" := JNull ]})) [Sample.x]
    = @convert_to_onnx_input Sample.externals (JObject {[ "x" := JNull ]}) [Sample.x].
Proof.
  apply (@null_value_counts_as_missing Sample.externals Sample.x {[ "x" := JNull ]}).
  reflexivity.
Defined.

(** ** The request handler *)

Section HandlerFacts.
Context `{Externals}.
Variable lc : LocalCache.

Lemma marshal_from (model_outputs : list model_output) (result : list json) :
  fold_left marshal_step model_outputs result = result ++ (marshalled <$> model_outputs).
Proof.
  revert result. induction model_outputs as [|o outs IH]; intros result.
  - cbn. by rewrite app_nil_r.
  - cbn [fold_left fmap list_fmap]. rewrite IH.
    destruct o; cbn [marshal_step marshalled]; by rewrite <- app_assoc.
Qed.

Lemma prediction_failed_status sample reason :
  resp_status (prediction_failed sample reason) = HTTP_406_NOT_ACCEPTABLE.
Proof. reflexivity. Qed.

Lemma prediction_failed_no_predictions sample reason :
  response_predictions (prediction_failed sample reason) = None.
Proof. reflexivity. Qed.



Lemma predict_loop_all (samples : list json) st i predictions :
  (∀ k sample, samples !! k = Some sample →
     ∃ p, (try_sample lc (descriptors_after lc st (take k samples)) sample).2 = inr p) →
  ∃ more,
    predict_loop lc st i samples predictions
    = (descriptors_after lc st samples, inr (predictions ++ more))
    ∧ length more = length samples
    ∧ ∀ k sample, samples !! k = Some sample →
        ∃ p, more !! k = Some p
             ∧ (try_sample lc (descriptors_after lc st (take k samples)) sample).2 = inr p.
Proof.
  revert st i predictions.
  induction samples as [|sample samples IH]; intros st i predictions Hall.
  - exists []. cbn. rewrite app_nil_r. repeat split. intros k s [=].
  - destruct (Hall 0%nat sample eq_refl) as [p Hp]. cbn in Hp.
    destruct (IH (try_sample lc st sample).1 (S i) (predictions ++ [p])) as (more & Hloop & Hlen & Hnth).
    { intros k s Hk. exact (Hall (S k) s Hk). }
    exists (p :: more). cbn [predict_loop].
    destruct (try_sample lc st sample) as [st' [[bound e]|p']] eqn:Htry;
      cbn [fst snd] in *; [discriminate|].
    injection Hp as ->.
    rewrite Hloop, <- app_assoc. split; [|split].
    + cbn [descriptors_after fold_left app]. by rewrite Htry.
    + cbn. by rewrite Hlen.
    + intros [|k] s Hk.
      * injection Hk as <-. exists p. split; [reflexivity|]. cbn. by rewrite Htry.
      * destruct (Hnth k s Hk) as (q & Hq & Htq). exists q. split; [exact Hq|].
        cbn [take descriptors_after fold_left]. unfold descriptors_after in Htq.
        by rewrite Htry.
Qed.

(** The part of the view after the top-level checks, for a body with a
    list under [samples]. *)
Lemma predict_samples st (m : gmap string json) (samples : list json) :
  m !! "samples" = Some (JArray samples) →
  predict lc st (inr (JObject m))
  = match predict_loop lc st 0 samples [] with
    | (st', inl failed) => (st', failed)
    | (st', inr predictions) =>
        (st', ok {| resp_body :=
                      Json (JObject (<["resource_id" := JString (api_id (api lc))]>
                                       {[ "predictions" := JArray predictions ]}));
                    resp_status := HTTP_200_OK |})
    end.
Proof.
  intros Hm. unfold predict. cbn [is_dict py_contains py_getitem negb orb].
  rewrite Hm. rewrite bool_decide_eq_true_2 by eauto. reflexivity.
Qed.

(** The top-level checks that do answer 406. *)
Lemma predict_malformed st (e : exn) :
  predict lc st (inl e)
  = (st, ok {| resp_body := Text "Malformed JSON"; resp_status := HTTP_400_BAD_REQUEST |}).
Proof. reflexivity. Qed.

Lemma predict_without_samples st (payload : json) :
  is_dict payload = false ∨ py_contains "samples" payload = false →
  predict lc st (inr payload)
  = (st, ok (prediction_failed payload
               (Some "top level `samples` key not found in request"))).
Proof.
  intros Hbad. unfold predict.
  destruct Hbad as [-> | ->]; [reflexivity|]. by rewrite orb_true_r.
Qed.

Lemma predict_samples_not_list st (m : gmap string json) (samples : json) (n : nat) :
  m !! "samples" = Some samples → py_len samples = inr n → is_list samples = false →
  predict lc st (inr (JObject m))
  = (st, ok (prediction_failed (JObject m)
               (Some "expected the value of key `samples` to be a list of json objects"))).
Proof.
  intros Hm Hlen Hlist. unfold predict. cbn [is_dict py_contains py_getitem negb orb].
  rewrite Hm, bool_decide_eq_true_2 by eauto.
  cbn [rbind ok]. rewrite Hlen, Hlist. reflexivity.
Qed.

(** A value without a length under [samples] makes the view raise. *)
Lemma predict_samples_no_len st (m : gmap string json) (samples : json) (e : exn) :
  m !! "samples" = Some samples → py_len samples = inl e →
  predict lc st (inr (JObject m)) = (st, raise e).
Proof.
  intros Hm Hlen. unfold predict. cbn [is_dict py_contains py_getitem negb orb].
  rewrite Hm, bool_decide_eq_true_2 by eauto.
  cbn [rbind ok]. rewrite Hlen. reflexivity.
Qed.

End HandlerFacts.

(** The identity model with the one input [y] of shape [[1]], on the body
    [{"samples": [5]}]. *)
Example predict_identity :
  predict Sample.cache [Sample.y] (inr (JObject {[ "samples" := JArray [JInt 5] ]}))
  = ([Sample.y],
     ok {| resp_body :=
             Json (JObject (<["resource_id" := JString "a1b2"]>
                              {[ "predictions" :=
                                   JArray [JObject {[ "prediction" :=
                                                        JArray [JArray [JInt 5]] ]}] ]}));
           resp_status := 200 |}).
Proof. vm_compute. reflexivity. Qed.

(** C9. The loop over the engine's outputs puts the list form of each
    array output and each other output as it is into [result], one entry
    per output and in the order of the outputs. *)
Theorem marshal_outputs `{Externals} (model_outputs : list model_output) :
  marshal model_outputs = marshalled <$> model_outputs
  ∧ length (marshal model_outputs) = length model_outputs
  ∧ (∀ i a, model_outputs !! i = Some (OutArray a) →
       marshal model_outputs !! i = Some (tolist a))
  ∧ (∀ i v, model_outputs !! i = Some (OutOther v) →
       marshal model_outputs !! i = Some v).
Proof.
  assert (marshal model_outputs = marshalled <$> model_outputs) as E
    by apply (marshal_from model_outputs []).
  rewrite E. split; [reflexivity|]. split; [apply length_fmap|].
  split; intros i o Hi; by rewrite list_lookup_fmap, Hi.
Qed.

(** C4 (the code departs from it). A body whose [samples] is not a
    sequence is to be answered with 406.  For the body [{"samples": 5}]
    the view raises a [TypeError] and answers nothing: the length of
    [samples] is taken before [samples] is checked to be a list. *)
Theorem samples_without_length_is_unhandled `{Externals}
    (lc : LocalCache) (input_metadata : list NodeArg) :
  predict lc input_metadata (inr (JObject {[ "samples" := JInt 5 ]}))
  = (input_metadata, raise (TypeError "object of type 'int' has no len()")).
Proof. reflexivity. Qed.

(** C5 (the code departs from it). A sample that fails in the [try]
    block is to be answered with one 406.  With a [pre_inference] that
    returns the array [np.array([1, 2])] and an input declared
    [[None, 3]], the sample fails in [reshape], the [except] clause is
    entered with the array as the sample, and [json.dumps] of the array
    raises there: the view answers nothing and the [TypeError] leaves
    it. *)
Theorem failing_array_sample_is_unhandled :
  try_sample Sample.pair_cache [Sample.x] (Sample.vec [1; 2; 3]%Z)
  = ([Sample.x],
     inl (Ndarray (Sample.array "float32" [2%N] [JInt 1; JInt 2]),
          ValueError "cannot reshape array of size 2 into shape (1,3)"))
  ∧ predict Sample.pair_cache [Sample.x]
      (inr (JObject {[ "samples" := JArray [Sample.vec [1; 2; 3]%Z] ]}))
    = ([Sample.x], raise (TypeError "Object of type ndarray is not JSON serializable")).
Proof. split; vm_compute; reflexivity. Qed.

(** C8. When the [try] block of every sample succeeds, each in the
    descriptors the samples before it left, the view answers 200 with
    [predictions] and the [resource_id] of the api; [predictions] is as
    long as [samples] and holds at each index the prediction of the
    sample at that index. *)
Theorem batch_success `{Externals} (lc : LocalCache)
    (input_metadata : list NodeArg) (m : gmap string json) (samples : list json) :
  m !! "samples" = Some (JArray samples) →
  (∀ i sample, samples !! i = Some sample →
     ∃ prediction,
       (try_sample lc (descriptors_after lc input_metadata (take i samples)) sample).2
       = inr prediction) →
  ∃ predictions,
    predict lc input_metadata (inr (JObject m))
    = (descriptors_after lc input_metadata samples,
       ok {| resp_body :=
               Json (JObject (<["resource_id" := JString (api_id (api lc))]>
                                {[ "predictions" := JArray predictions ]}));
             resp_status := 200 |})
    ∧ length predictions = length samples
    ∧ ∀ i sample, samples !! i = Some sample →
        ∃ prediction,
          predictions !! i = Some prediction
          ∧ (try_sample lc (descriptors_after lc input_metadata (take i samples)) sample).2
            = inr prediction.
Proof.
  intros Hm Hall.
  destruct (predict_loop_all lc samples input_metadata 0 [] Hall) as (predictions & Hloop & Hrest).
  exists predictions. split; [|exact Hrest].
  rewrite (predict_samples lc _ _ _ Hm), Hloop. reflexivity.
Qed.

Lemma batch_success_witness :
  ∃ predictions,
    predict Sample.cache [Sample.x]
      (inr (JObject {[ "samples" := JArray [Sample.vec [1; 2; 3]%Z; Sample.vec [4; 5; 6]%Z] ]}))
    = (descriptors_after Sample.cache [Sample.x]
         [Sample.vec [1; 2; 3]%Z; Sample.vec [4; 5; 6]%Z],
       ok {| resp_body :=
               Json (JObject (<["resource_id" := JString "a1b2"]>
                                {[ "predictions" := JArray predictions ]}));
             resp_status := 200 |})
    ∧ length predictions = 2%nat.
Proof.
  destruct (@batch_success Sample.externals Sample.cache [Sample.x]
              {[ "samples" := JArray [Sample.vec [1; 2; 3]%Z; Sample.vec [4; 5; 6]%Z] ]}
              [Sample.vec [1; 2; 3]%Z; Sample.vec [4; 5; 6]%Z])
    as (predictions & Hpredict & Hlen & _).
  - reflexivity.
  - intros [|[|i]] sample Hi; cbn in Hi; simplify_eq; eexists; vm_compute; reflexivity.
  - exists predictions. split; [exact Hpredict|exact Hlen].
Defined.

Lemma marshal_outputs_witness :
  let outputs :=
    [OutArray (Sample.array "float32" [1%N; 2%N] [JInt 1; JInt 2]);
     OutOther (JString "setosa")] in
  marshal outputs !! 0%nat = Some (JArray [JArray [JInt 1; JInt 2]])
  ∧ marshal outputs !! 1%nat = Some (JString "setosa").
Proof.
  intros outputs.
  destruct (@marshal_outputs Sample.externals outputs) as (_ & _ & Harray & Hother).
  split.
  - apply (Harray 0%nat (Sample.array "float32" [1%N; 2%N] [JInt 1; JInt 2])). reflexivity.
  - apply (Hother 1%nat (JString "setosa")). reflexivity.
Defined.


(** * Further properties of the code *)

(** ** Coercion: what it leaves and what it returns *)

Section CoercionMore.
Context `{Externals}.

Lemma fill_fixed (s : list (option N)) : fill <$> s = s ↔ None ∉ s.
Proof.
  induction s as [|dim s IH]; [split; [intros _ []%elem_of_nil|done]|].
  rewrite fmap_cons, not_elem_of_cons, <- IH. split.
  - intros [= Hdim Hs]. split; [|exact Hs]. destruct dim; [done|discriminate].
  - intros [Hdim ->]. destruct dim; [done|congruence].
Qed.

Lemma settle_idempotent (d : NodeArg) : settle (settle d) = settle d.
Proof.
  unfold settle, set_shape. cbn. f_equal.
  rewrite <- list_fmap_compose. apply list_fmap_ext. by intros _ [n|] _.
Qed.

(** The call for a type of the table. *)
Lemma transform_known (input_pyobj : pyobj) (d : NodeArg) (dt : string) :
  onnx_to_np !! type d = Some dt →
  transform_to_numpy input_pyobj d
  = (d,
     let? np_arr :=
       match input_pyobj with
       | FromJson v => np_array v dt
       | Ndarray a => ok a
       end in
     reshape np_arr (fill <$> shape d)).
Proof.
  intros Hty. unfold transform_to_numpy. rewrite Hty. cbn zeta.
  by rewrite resolve_loop_fill.
Qed.

Lemma transform_unknown (input_pyobj : pyobj) (d : NodeArg) :
  onnx_to_np !! type d = None →
  transform_to_numpy input_pyobj d = (d, raise (KeyError (type d))).
Proof. intros Hty. unfold transform_to_numpy. by rewrite Hty. Qed.

Lemma reshape_fill (a : ndarray) (s : list (option N)) :
  reshape a (fill <$> s)
  = if (N.of_nat (length (arr_data a)) =? product (default 1%N <$> s))%N
    then ok {| arr_dtype := arr_dtype a; arr_shape := default 1%N <$> s;
               arr_data := arr_data a |}
    else raise (cannot_reshape (length (arr_data a)) (default 1%N <$> s)).
Proof. unfold reshape. by rewrite mapM_dims_fill. Qed.

Lemma transform_settles (input_pyobj : pyobj) (d : NodeArg) :
  settle (transform_to_numpy input_pyobj d).1 = settle d.
Proof. by rewrite transform_to_numpy_descriptor. Qed.

Lemma transform_of_settled (input_pyobj : pyobj) (d : NodeArg) :
  (transform_to_numpy input_pyobj (settle d)).2 = (transform_to_numpy input_pyobj d).2.
Proof.
  unfold transform_to_numpy. cbn [settle set_shape type shape].
  destruct (onnx_to_np !! type d); [|reflexivity].
  cbn [snd]. cbn zeta. by rewrite <- (resolve_loop_fill (shape d)), resolve_loop_idempotent.
Qed.

End CoercionMore.

(** X1. A call changes nothing in its descriptor but unknown dimensions:
    the name, the type, the number of dimensions and every known
    dimension are as before, and an unknown dimension is still unknown
    or is 1. *)
Theorem coercion_touches_only_unknown_dimensions `{Externals}
    (input_pyobj : pyobj) (d : NodeArg) :
  let d' := (transform_to_numpy input_pyobj d).1 in
  name d' = name d
  ∧ type d' = type d
  ∧ length (shape d') = length (shape d)
  ∧ (∀ i n, shape d !! i = Some (Some n) → shape d' !! i = Some (Some n))
  ∧ (∀ i, shape d !! i = Some None →
       shape d' !! i = Some None ∨ shape d' !! i = Some (Some 1%N)).
Proof.
  cbn zeta. rewrite transform_to_numpy_descriptor. repeat split; auto.
Qed.

Lemma coercion_touches_only_unknown_dimensions_witness :
  shape (@transform_to_numpy Sample.externals (FromJson (Sample.vec [4; 5]%Z)) Sample.x).1
    !! 1%nat = Some (Some 3%N)
  ∧ (shape (@transform_to_numpy Sample.externals (FromJson (Sample.vec [4; 5]%Z)) Sample.x).1
       !! 0%nat = Some None
     ∨ shape (@transform_to_numpy Sample.externals (FromJson (Sample.vec [4; 5]%Z)) Sample.x).1
         !! 0%nat = Some (Some 1%N)).
Proof.
  destruct (@coercion_touches_only_unknown_dimensions Sample.externals
              (FromJson (Sample.vec [4; 5]%Z)) Sample.x) as (_ & _ & _ & Hknown & Hunknown).
  split; [apply Hknown|apply Hunknown]; reflexivity.
Defined.

(** X3. A second call on the descriptor a call has left writes nothing
    more, and gives the array or the exception it would have given on the
    descriptor as first loaded. *)
Theorem coercion_second_call `{Externals} (first second : pyobj) (d : NodeArg) :
  transform_to_numpy second (transform_to_numpy first d).1
  = ((transform_to_numpy first d).1, (transform_to_numpy second d).2).
Proof.
  rewrite (surjective_pairing (transform_to_numpy second _)).
  rewrite transform_to_numpy_stable. f_equal.
  by rewrite !transform_to_numpy_descriptor.
Qed.

(** X4. An array that coercion returns has as many dimensions as the
    descriptor declares, and exactly as many elements as the product of
    the declared dimensions with every unknown one counted as 1; this
    holds for a JSON value and for an array passed in alike. *)
Theorem coerced_tensor_is_well_formed `{Externals}
    (input_pyobj : pyobj) (d : NodeArg) (a : ndarray) :
  (transform_to_numpy input_pyobj d).2 = inr a →
  length (arr_shape a) = length (shape d)
  ∧ N.of_nat (length (arr_data a)) = product (default 1%N <$> shape d)
  ∧ product (arr_shape a) = N.of_nat (length (arr_data a)).
Proof.
  destruct (onnx_to_np !! type d) as [dt|] eqn:Hty;
    [rewrite (transform_known _ _ _ Hty)|by rewrite (transform_unknown _ _ Hty)].
  cbn [snd].
  assert (∀ b : ndarray, reshape b (fill <$> shape d) = inr a →
            length (arr_shape a) = length (shape d)
            ∧ N.of_nat (length (arr_data a)) = product (default 1%N <$> shape d)
            ∧ product (arr_shape a) = N.of_nat (length (arr_data a))) as Hreshape.
  { intros b. rewrite reshape_fill.
    destruct (_ =? _)%N eqn:Hsize; [|discriminate].
    apply N.eqb_eq in Hsize. intros [= <-]. cbn.
    rewrite length_fmap. by rewrite Hsize. }
  destruct input_pyobj as [v|b]; cbn [rbind ok].
  - destruct (np_array v dt) as [e|b]; [discriminate|]. apply Hreshape.
  - apply Hreshape.
Qed.

Lemma coerced_tensor_is_well_formed_witness :
  length (arr_shape (Sample.array "float32" [1%N; 3%N] [JInt 1; JInt 2; JInt 3]))
  = length (shape Sample.x)
  ∧ N.of_nat (length (arr_data (Sample.array "float32" [1%N; 3%N] [JInt 1; JInt 2; JInt 3])))
    = product (default 1%N <$> shape Sample.x)
  ∧ product (arr_shape (Sample.array "float32" [1%N; 3%N] [JInt 1; JInt 2; JInt 3]))
    = N.of_nat (length (arr_data (Sample.array "float32" [1%N; 3%N] [JInt 1; JInt 2; JInt 3]))).
Proof.
  apply (@coerced_tensor_is_well_formed Sample.externals
           (FromJson (Sample.vec [1; 2; 3]%Z)) Sample.x).
  reflexivity.
Defined.

(** X5. An array passed in is not converted: for a descriptor whose type
    is in the table, the call succeeds exactly when the array has as many
    elements as the resolved shape asks for, and then returns the same
    elements under the array's own element type, which need not be the
    declared one; only the shape is replaced. *)
Theorem array_input_is_only_reshaped `{Externals} (a : ndarray) (d : NodeArg) (dt : string) :
  onnx_to_np !! type d = Some dt →
  (transform_to_numpy (Ndarray a) d).2
  = if (N.of_nat (length (arr_data a)) =? product (default 1%N <$> shape d))%N
    then ok {| arr_dtype := arr_dtype a; arr_shape := default 1%N <$> shape d;
               arr_data := arr_data a |}
    else raise (cannot_reshape (length (arr_data a)) (default 1%N <$> shape d)).
Proof.
  intros Hty. rewrite (transform_known _ _ _ Hty). cbn [snd rbind ok]. apply reshape_fill.
Qed.

Lemma array_input_is_only_reshaped_witness :
  (@transform_to_numpy Sample.externals
     (Ndarray (Sample.array "int64" [3%N] [JInt 1; JInt 2; JInt 3])) Sample.x).2
  = ok (Sample.array "int64" [1%N; 3%N] [JInt 1; JInt 2; JInt 3]).
Proof.
  apply (@array_input_is_only_reshaped Sample.externals
           (Sample.array "int64" [3%N] [JInt 1; JInt 2; JInt 3]) Sample.x "float32").
  reflexivity.
Defined.

(** X6. When a JSON value is coerced, the element type of the array is
    the table's entry for the declared type, and the elements are the
    conversions to that type of the leaves of the value, in order. *)
Theorem json_input_is_cast_to_table_type `{Externals}
    (v : json) (d : NodeArg) (dt : string) (a : ndarray) :
  onnx_to_np !! type d = Some dt →
  (transform_to_numpy (FromJson v) d).2 = inr a →
  arr_dtype a = dt ∧ mapM (np_cast dt) (np_leaves v) = inr (arr_data a).
Proof.
  intros Hty. rewrite (transform_known _ _ _ Hty). cbn [snd].
  unfold np_array. destruct (np_understood dt); [|discriminate].
  destruct (np_dims v) as [s|]; [|discriminate].
  destruct (mapM (np_cast dt) (np_leaves v)) as [e|data]; [discriminate|].
  cbn [rbind ok]. rewrite reshape_fill. cbn.
  destruct (_ =? _)%N; [|discriminate]. by intros [= <-].
Qed.

Lemma json_input_is_cast_to_table_type_witness :
  arr_dtype (Sample.array "float32" [1%N; 3%N] [JInt 1; JInt 2; JInt 3]) = "float32"
  ∧ mapM (@np_cast Sample.externals "float32") (np_leaves (Sample.vec [1; 2; 3]%Z))
    = inr (arr_data (Sample.array "float32" [1%N; 3%N] [JInt 1; JInt 2; JInt 3])).
Proof.
  apply (@json_input_is_cast_to_table_type Sample.externals
           (Sample.vec [1; 2; 3]%Z) Sample.x); reflexivity.
Defined.

(** X7. The type table has twelve entries and sends different engine
    types to different element types, so it can be read backwards. *)
Theorem onnx_to_np_is_injective :
  size onnx_to_np = 12%nat
  ∧ ∀ t1 t2 dt : string,
      onnx_to_np !! t1 = Some dt → onnx_to_np !! t2 = Some dt → t1 = t2.
Proof.
  split; [by vm_compute|].
  intros t1 t2 dt H1 H2.
  apply elem_of_list_to_map_2 in H1. apply elem_of_list_to_map_2 in H2.
  repeat (apply elem_of_cons in H1 as [H1|H1]; [injection H1 as -> ->|]);
    try (by apply elem_of_nil in H1);
    repeat (apply elem_of_cons in H2 as [H2|H2]; [by simplify_eq|]);
    by apply elem_of_nil in H2.
Qed.

Lemma onnx_to_np_is_injective_witness : "tensor(double)" = "tensor(double)".
Proof.
  apply (proj2 onnx_to_np_is_injective "tensor(double)" "tensor(double)" "float64");
    reflexivity.
Defined.

(** ** Dispatch: every number of inputs *)

Section DispatchMore.
Context `{Externals}.

(** The exception-or-mapping part of a call for one input, as a function
    of the input's name and of what coercion returns. *)
Lemma convert_single_result (sample : pyobj) (d : NodeArg) :
  (convert_to_onnx_input sample [d]).2
  = if sample_is_mapping sample then
      match sample_get sample (name d) with
      | inl e => raise e
      | inr JNull => raise (missing_key (name d))
      | inr _ =>
          match sample_getitem sample (name d) with
          | inl e => raise e
          | inr v =>
              let? np_arr := (transform_to_numpy (FromJson v) d).2 in
              ok {[ name d := np_arr ]}
          end
      end
    else
      let? np_arr := (transform_to_numpy sample d).2 in
      ok {[ name d := np_arr ]}.
Proof.
  unfold convert_to_onnx_input.
  destruct (sample_is_mapping sample).
  - destruct (sample_get sample (name d)) as [e|got]; [reflexivity|].
    destruct (sample_getitem sample (name d)) as [e|v].
    + by destruct got.
    + destruct (transform_to_numpy (FromJson v) d) as [d' r]. by destruct got.
  - by destruct (transform_to_numpy sample d) as [d' r].
Qed.

(** A call leaves the descriptors as they were. *)
Lemma convert_descriptors (sample : pyobj) (l : list NodeArg) :
  (convert_to_onnx_input sample l).1 = l.
Proof.
  destruct l as [|d1 [|d2 rest]]; [reflexivity| |by rewrite convert_multi_raises].
  unfold convert_to_onnx_input.
  destruct (sample_is_mapping sample).
  - destruct (sample_get sample (name d1)) as [e|got]; [reflexivity|].
    destruct (sample_getitem sample (name d1)) as [e|v].
    + by destruct got.
    + pose proof (transform_to_numpy_descriptor (FromJson v) d1) as Hd.
      destruct (transform_to_numpy (FromJson v) d1) as [d' r]. cbn [fst] in Hd. subst d'.
      by destruct got.
  - pose proof (transform_to_numpy_descriptor sample d1) as Hd.
    destruct (transform_to_numpy sample d1) as [d' r]. cbn [fst] in Hd. by subst d'.
Qed.

(** A call does not add, drop or reorder descriptors, nor change a name,
    a type or a known dimension. *)
Lemma convert_settles (sample : pyobj) (l : list NodeArg) :
  settle <$> (convert_to_onnx_input sample l).1 = settle <$> l.
Proof. by rewrite convert_descriptors. Qed.

(** The exception or mapping of a call is the same on descriptors that
    differ only by a 1 in the place of an unknown dimension. *)
Lemma convert_of_settled (sample : pyobj) (l l' : list NodeArg) :
  settle <$> l = settle <$> l' →
  (convert_to_onnx_input sample l).2 = (convert_to_onnx_input sample l').2.
Proof.
  intros Hs.
  destruct l as [|d1 [|d2 rest]], l' as [|d1' [|d2' rest']]; try discriminate.
  - reflexivity.
  - assert (settle d1 = settle d1') as Hd by (cbn in Hs; congruence).
    assert (name d1 = name d1') as Hname by exact (f_equal name Hd).
    assert (∀ p, (transform_to_numpy p d1).2 = (transform_to_numpy p d1').2) as Hco.
    { intros p. by rewrite <- (transform_of_settled p d1), Hd, transform_of_settled. }
    rewrite !convert_single_result, Hname.
    destruct (sample_is_mapping sample); [|by rewrite Hco].
    destruct (sample_get sample (name d1')) as [e|got]; [reflexivity|].
    destruct (sample_getitem sample (name d1')) as [e|v]; [reflexivity|].
    by rewrite Hco.
  - by rewrite !convert_multi_raises.
Qed.

End DispatchMore.

(** X8. For a model with two or more declared inputs the call raises the
    [AttributeError] of the lookup of [is_dict] on the sample, whatever the
    sample is, and it has then written into no descriptor. *)
Theorem multi_input_dispatch_always_raises `{Externals}
    (sample : json) (input_metadata_list : list NodeArg) :
  (2 ≤ length input_metadata_list)%nat →
  convert_to_onnx_input sample input_metadata_list
  = (input_metadata_list, raise (no_attribute sample "is_dict")).
Proof.
  destruct input_metadata_list as [|d1 [|d2 rest]]; cbn [length]; [lia|lia|].
  intros _. apply convert_multi_raises.
Qed.

Lemma multi_input_dispatch_always_raises_witness :
  @convert_to_onnx_input Sample.externals (JString "a") [Sample.x; Sample.y; Sample.x]
  = ([Sample.x; Sample.y; Sample.x], raise (no_attribute (JString "a") "is_dict")).
Proof.
  apply (@multi_input_dispatch_always_raises Sample.externals). cbn. lia.
Defined.

(** X9. A call that returns a mapping was made for at most one declared
    input, and the keys of the mapping are exactly the declared names:
    none for a model without inputs, the one name otherwise. *)
Theorem dispatch_success_binds_declared_names `{Externals}
    (sample : json) (l l' : list NodeArg) (input_dict : gmap string ndarray) :
  convert_to_onnx_input sample l = (l', inr input_dict) →
  (length l ≤ 1)%nat
  ∧ dom input_dict = list_to_set (name <$> l)
  ∧ size input_dict = length l.
Proof.
  intros Hcall. apply (f_equal snd) in Hcall. cbn [snd] in Hcall.
  destruct l as [|d1 [|d2 rest]].
  - cbn in Hcall. injection Hcall as <-. rewrite dom_empty_L, map_size_empty.
    split; [cbn; lia|by split].
  - rewrite convert_single_result in Hcall.
    assert (∃ a : ndarray, input_dict = {[ name d1 := a ]}) as [a ->].
    { destruct (sample_is_mapping _).
      - destruct (sample_get _ (name d1)) as [e|got]; [discriminate|].
        destruct (sample_getitem _ (name d1)) as [e|v]; [by destruct got|].
        destruct ((transform_to_numpy (FromJson v) d1).2) as [e|a];
          destruct got; try discriminate; injection Hcall as <-; by exists a.
      - destruct ((transform_to_numpy _ d1).2) as [e|a]; [discriminate|].
        injection Hcall as <-. by exists a. }
    rewrite dom_singleton_L, map_size_singleton. cbn.
    split; [lia|]. split; [|done]. by rewrite union_empty_r_L.
  - by rewrite convert_multi_raises in Hcall.
Qed.

Lemma dispatch_success_binds_declared_names_witness :
  (length [Sample.y] ≤ 1)%nat
  ∧ dom ({[ "y" := Sample.array "int64" [1%N] [JInt 5] ]} : gmap string (@ndarray Sample.externals))
    = list_to_set (name <$> [Sample.y])
  ∧ size ({[ "y" := Sample.array "int64" [1%N] [JInt 5] ]} : gmap string (@ndarray Sample.externals))
    = length [Sample.y].
Proof.
  apply (@dispatch_success_binds_declared_names Sample.externals (JInt 5) [Sample.y] [Sample.y]).
  reflexivity.
Defined.

(** ** The view: what every request gets *)

Section HandlerMore.
Context `{Externals}.
Variable lc : LocalCache.

(** The shapes a request can have, in the order the view tells them
    apart. *)
Lemma request_cases (get_json : raising json) :
  (∃ e, get_json = inl e)
  ∨ (∃ payload, get_json = inr payload
       ∧ (is_dict payload = false ∨ py_contains "samples" payload = false))
  ∨ (∃ m v, get_json = inr (JObject m) ∧ m !! "samples" = Some v
       ∧ ((∃ e, py_len v = inl e)
          ∨ (∃ n, py_len v = inr n ∧ is_list v = false)
          ∨ (∃ samples, v = JArray samples))).
Proof.
  destruct get_json as [e|payload]; [left; eauto|right].
  destruct payload as [| | | | | |m]; try (left; eexists; split; [reflexivity|by left]).
  destruct (m !! "samples") as [v|] eqn:Hm.
  - right. exists m, v. split; [reflexivity|]. split; [exact Hm|].
    destruct v; cbn; eauto.
  - left. eexists; split; [reflexivity|]. right. cbn. rewrite Hm.
    apply bool_decide_eq_false_2. by intros [? ?].
Qed.

Lemma infer_sample_fst st sample :
  (infer_sample lc st sample).1 = (convert_to_onnx_input sample st).1.
Proof. unfold infer_sample. by destruct (convert_to_onnx_input sample st). Qed.

Lemma infer_sample_snd st sample :
  (infer_sample lc st sample).2
  = let? inference_input := (convert_to_onnx_input sample st).2 in
    let? model_outputs := run (sess lc) [] inference_input in
    let? result := post_hook lc (JArray (marshal model_outputs)) in
    ok (JObject {[ "prediction" := result ]}).
Proof. unfold infer_sample. by destruct (convert_to_onnx_input sample st). Qed.

Lemma try_sample_fst st sample :
  (try_sample lc st sample).1
  = match pre_hook lc st sample with
    | inl _ => st
    | inr sample' => (convert_to_onnx_input sample' st).1
    end.
Proof.
  unfold try_sample. destruct (pre_hook lc st sample) as [e|sample']; [reflexivity|].
  rewrite <- infer_sample_fst. by destruct (infer_sample lc st sample').
Qed.

Lemma try_sample_snd st sample :
  (try_sample lc st sample).2
  = match pre_hook lc st sample with
    | inl e => inl (FromJson sample, e)
    | inr sample' =>
        match (infer_sample lc st sample').2 with
        | inl e => inl (sample', e)
        | inr prediction => inr prediction
        end
    end.
Proof.
  unfold try_sample. destruct (pre_hook lc st sample) as [e|sample']; [reflexivity|].
  by destruct (infer_sample lc st sample').
Qed.

Lemma try_sample_settles st sample :
  settle <$> (try_sample lc st sample).1 = settle <$> st.
Proof.
  rewrite try_sample_fst. destruct (pre_hook lc st sample); [reflexivity|].
  apply convert_settles.
Qed.

Lemma predict_loop_settles samples st i predictions :
  settle <$> (predict_loop lc st i samples predictions).1 = settle <$> st.
Proof.
  revert st i predictions. induction samples as [|sample samples IH]; intros st i predictions.
  - reflexivity.
  - cbn [predict_loop]. pose proof (try_sample_settles st sample) as Hs.
    destruct (try_sample lc st sample) as [st' [[bound e]|p]]; cbn [fst] in *; [exact Hs|].
    by rewrite IH.
Qed.

(** A prediction is an object with the one key [prediction]. *)
Lemma try_sample_prediction st sample st' (p : json) :
  try_sample lc st sample = (st', inr p) → ∃ r, p = JObject {[ "prediction" := r ]}.
Proof.
  intros Htry. apply (f_equal snd) in Htry. rewrite try_sample_snd in Htry. cbn in Htry.
  destruct (pre_hook lc st sample) as [e|sample']; [discriminate|].
  rewrite infer_sample_snd in Htry.
  destruct ((convert_to_onnx_input sample' st).2) as [e|inputs]; [discriminate|].
  cbn [rbind] in Htry.
  destruct (run (sess lc) [] inputs) as [e|outs]; [discriminate|].
  cbn [rbind] in Htry.
  destruct (post_hook lc _) as [e|r]; [discriminate|].
  injection Htry as <-. by exists r.
Qed.

(** The loop either gets through every sample, or stops at the first
    sample whose [try] block raises. *)
Lemma predict_loop_cases samples st i predictions :
  (∃ more,
     predict_loop lc st i samples predictions
     = (descriptors_after lc st samples, inr (predictions ++ more))
     ∧ length more = length samples
     ∧ Forall (fun p => ∃ r, p = JObject {[ "prediction" := r ]}) more)
  ∨ (∃ visited sample later st1 st2 bound e so_far,
       samples = visited ++ sample :: later
       ∧ predict_loop lc st i visited predictions = (st1, inr so_far)
       ∧ try_sample lc st1 sample = (st2, inl (bound, e))
       ∧ predict_loop lc st i samples predictions
         = (st2, inl (on_exception (i + length visited) bound e))).
Proof.
  revert st i predictions. induction samples as [|sample samples IH]; intros st i predictions.
  - left. exists []. cbn. by rewrite app_nil_r.
  - destruct (try_sample lc st sample) as [st' [[bound e]|p]] eqn:Htry.
    + right. exists [], sample, samples, st, st', bound, e, predictions.
      cbn [predict_loop app length]. rewrite Htry, Nat.add_0_r. done.
    + destruct (try_sample_prediction _ _ _ _ Htry) as [r Hr].
      destruct (IH st' (S i) (predictions ++ [p])) as
        [(more & Hloop & Hlen & Hall)
        |(visited & s & later & st1 & st2 & bound & e & so_far & -> & Hvis & Hfail & Hloop)].
      * left. exists (p :: more). cbn [predict_loop]. rewrite Htry, Hloop, <- app_assoc.
        split; [|split].
        -- cbn [descriptors_after fold_left]. by rewrite Htry.
        -- cbn. by rewrite Hlen.
        -- constructor; [by exists r|exact Hall].
      * right. exists (sample :: visited), s, later, st1, st2, bound, e, so_far.
        cbn [predict_loop app length]. rewrite Htry, Hvis, Hloop.
        repeat split; try done. do 3 f_equal. lia.
Qed.

Lemma predict_settles st (get_json : raising json) :
  settle <$> (predict lc st get_json).1 = settle <$> st.
Proof.
  destruct (request_cases get_json) as
    [[e ->]|[(payload & -> & Hbad)|(m & v & -> & Hm & [[e He]|[(n & Hn & Hl)|[samples ->]]])]].
  - reflexivity.
  - by rewrite predict_without_samples.
  - by rewrite (predict_samples_no_len lc _ _ _ _ Hm He).
  - by rewrite (predict_samples_not_list lc _ _ _ _ Hm Hn Hl).
  - rewrite (predict_samples lc _ _ _ Hm).
    pose proof (predict_loop_settles samples st 0 []) as Hloop.
    by destruct (predict_loop lc st 0 samples []) as [st' [failed|preds]].
Qed.

End HandlerMore.

(** X10. Whatever the request, the view leaves as many input descriptors
    as it found, with the same names and types in the same order; the
    shapes differ at most by a 1 written where a dimension was unknown. *)
Theorem view_keeps_descriptors `{Externals} (lc : LocalCache)
    (input_metadata : list NodeArg) (get_json : raising json) :
  let after := (predict lc input_metadata get_json).1 in
  length after = length input_metadata
  ∧ name <$> after = name <$> input_metadata
  ∧ type <$> after = type <$> input_metadata
  ∧ settle <$> after = settle <$> input_metadata.
Proof.
  cbn zeta.
  pose proof (predict_settles lc input_metadata get_json) as Hs.
  split; [|split; [|split; [|exact Hs]]].
  - apply (f_equal length) in Hs. by rewrite !length_fmap in Hs.
  - apply (f_equal (fmap name)) in Hs. by rewrite <- !list_fmap_compose in Hs.
  - apply (f_equal (fmap type)) in Hs. by rewrite <- !list_fmap_compose in Hs.
Qed.



(** X12. The bodies the top-level checks do refuse: a body that is not a
    mapping or has no key [samples], and a mapping whose [samples] is a
    string or a mapping, are answered 406 with the whole body echoed and
    the message of the check that failed; the descriptors are untouched. *)
Theorem view_refuses_at_top_level `{Externals} (lc : LocalCache)
    (input_metadata : list NodeArg) :
  (∀ payload : json,
     is_dict payload = false ∨ py_contains "samples" payload = false →
     predict lc input_metadata (inr payload)
     = (input_metadata,
        ok (prediction_failed payload
              (Some "top level `samples` key not found in request"))))
  ∧ (∀ (m : gmap string json) (v : json),
       m !! "samples" = Some v → (∃ s, v = JString s) ∨ (∃ o, v = JObject o) →
       predict lc input_metadata (inr (JObject m))
       = (input_metadata,
          ok (prediction_failed (JObject m)
                (Some "expected the value of key `samples` to be a list of json objects")))).
Proof.
  split; [apply predict_without_samples|].
  intros m v Hm [[s ->]|[o ->]].
  - by apply (predict_samples_not_list lc _ _ _ (String.length s) Hm).
  - by apply (predict_samples_not_list lc _ _ _ (size o) Hm).
Qed.

Lemma view_refuses_at_top_level_witness :
  predict Sample.cache [Sample.x] (inr (JArray []))
  = ([Sample.x],
     ok (@prediction_failed Sample.externals (JArray [])
           (Some "top level `samples` key not found in request")))
  ∧ predict Sample.cache [Sample.x] (inr (JObject {[ "samples" := JString "abc" ]}))
    = ([Sample.x],
       ok (@prediction_failed Sample.externals (JObject {[ "samples" := JString "abc" ]})
             (Some "expected the value of key `samples` to be a list of json objects"))).
Proof.
  split.
  - apply (proj1 (@view_refuses_at_top_level Sample.externals Sample.cache [Sample.x])).
    by left.
  - apply (proj2 (@view_refuses_at_top_level Sample.externals Sample.cache [Sample.x])
             {[ "samples" := JString "abc" ]} (JString "abc")); [reflexivity|].
    left. by exists "abc".
Defined.

(** X13. Every answer of the view is of one of three kinds: 400 with the
    fixed text, for a body that did not decode; 406 with a failure message
    and no [predictions]; or 200, for a mapping with a list under
    [samples], with a body made of [resource_id] and of [predictions], as
    many as there are samples, each an object with the one key
    [prediction]. *)
Theorem every_answer_is_of_three_kinds `{Externals} (lc : LocalCache)
    (input_metadata : list NodeArg) (get_json : raising json) (r : response) :
  (predict lc input_metadata get_json).2 = inr r →
  (resp_status r = 400%Z ∧ resp_body r = Text "Malformed JSON" ∧ ∃ e, get_json = inl e)
  ∨ (resp_status r = 406%Z ∧ response_predictions r = None
     ∧ ∃ echoed reason, r = prediction_failed echoed (Some reason))
  ∨ (resp_status r = 200%Z
     ∧ ∃ (m : gmap string json) (samples predictions : list json),
         get_json = inr (JObject m) ∧ m !! "samples" = Some (JArray samples)
         ∧ resp_body r
           = Json (JObject (<["resource_id" := JString (api_id (api lc))]>
                              {[ "predictions" := JArray predictions ]}))
         ∧ length predictions = length samples
         ∧ Forall (fun p => ∃ result, p = JObject {[ "prediction" := result ]}) predictions).
Proof.
  destruct (request_cases get_json) as
    [[e ->]|[(payload & -> & Hbad)|(m & v & -> & Hm & [[e He]|[(n & Hn & Hl)|[samples ->]]])]].
  - intros [= <-]. left. eauto.
  - rewrite predict_without_samples by done. intros [= <-]. right; left. eauto.
  - by rewrite (predict_samples_no_len lc _ _ _ _ Hm He).
  - rewrite (predict_samples_not_list lc _ _ _ _ Hm Hn Hl). intros [= <-]. right; left. eauto.
  - rewrite (predict_samples lc _ _ _ Hm).
    destruct (predict_loop_cases lc samples input_metadata 0 []) as
      [(more & -> & Hlen & Hall)
      |(visited & s & later & st1 & st2 & bound & e & so_far & _ & _ & _ & ->)].
    + intros [= <-]. right; right. split; [reflexivity|].
      exists m, samples, more. by repeat split.
    + unfold on_exception. destruct bound as [v|a]; [|discriminate].
      intros [= <-]. right; left. eauto.
Qed.

Lemma every_answer_is_of_three_kinds_witness :
  resp_status (@prediction_failed Sample.externals (JObject ∅)
                 (Some "top level `samples` key not found in request")) = 406%Z.
Proof.
  destruct (@every_answer_is_of_three_kinds Sample.externals Sample.cache [Sample.x]
              (inr (JObject ∅))
              (@prediction_failed Sample.externals (JObject ∅)
                 (Some "top level `samples` key not found in request")))
    as [(H400 & _)|[(H406 & _)|(H200 & _)]];
    [reflexivity|discriminate H400|exact H406|discriminate H200].
Defined.



(** X15. An empty batch is answered 200 with an empty [predictions] list;
    neither the request handler nor the engine is consulted, and the
    descriptors are untouched. *)
Theorem empty_batch_succeeds `{Externals} (lc : LocalCache)
    (input_metadata : list NodeArg) (m : gmap string json) :
  m !! "samples" = Some (JArray []) →
  predict lc input_metadata (inr (JObject m))
  = (input_metadata,
     ok {| resp_body :=
             Json (JObject (<["resource_id" := JString (api_id (api lc))]>
                              {[ "predictions" := JArray [] ]}));
           resp_status := 200 |}).
Proof. intros Hm. by rewrite (predict_samples lc _ _ _ Hm). Qed.

Lemma empty_batch_succeeds_witness :
  predict Sample.cache [Sample.x; Sample.y] (inr (JObject {[ "samples" := JArray [] ]}))
  = ([Sample.x; Sample.y],
     ok {| resp_body :=
             Json (JObject (<["resource_id" := JString "a1b2"]>
                              {[ "predictions" := JArray [] ]}));
           resp_status := 200 |}).
Proof.
  apply (@empty_batch_succeeds Sample.externals Sample.cache [Sample.x; Sample.y]).
  reflexivity.
Defined.



(** ** Requests do not depend on earlier requests *)

Section HistoryFacts.
Context `{Externals}.
Variable lc : LocalCache.
Hypothesis Hblind : ∀ sample st1 st2, pre_hook lc st1 sample = pre_hook lc st2 sample.

Lemma try_sample_of_settled st st' sample :
  settle <$> st = settle <$> st' →
  (try_sample lc st sample).2 = (try_sample lc st' sample).2.
Proof.
  intros Hs. rewrite !try_sample_snd, (Hblind sample st st').
  destruct (pre_hook lc st' sample) as [e|sample']; [reflexivity|].
  by rewrite !infer_sample_snd, (convert_of_settled _ _ _ Hs).
Qed.

Lemma predict_loop_of_settled samples st st' i predictions :
  settle <$> st = settle <$> st' →
  (predict_loop lc st i samples predictions).2 = (predict_loop lc st' i samples predictions).2.
Proof.
  revert st st' i predictions.
  induction samples as [|sample samples IH]; intros st st' i predictions Hs; [reflexivity|].
  cbn [predict_loop].
  pose proof (try_sample_of_settled st st' sample Hs) as Hr.
  pose proof (try_sample_settles lc st sample) as H1.
  pose proof (try_sample_settles lc st' sample) as H2.
  destruct (try_sample lc st sample) as [st1 r1], (try_sample lc st' sample) as [st2 r2].
  cbn [fst snd] in *. subst r2.
  destruct r1 as [[bound e]|p]; [reflexivity|].
  apply IH. congruence.
Qed.

Lemma predict_of_settled st st' (get_json : raising json) :
  settle <$> st = settle <$> st' →
  (predict lc st get_json).2 = (predict lc st' get_json).2.
Proof.
  intros Hs.
  destruct (request_cases get_json) as
    [[e ->]|[(payload & -> & Hbad)|(m & v & -> & Hm & [[e He]|[(n & Hn & Hl)|[samples ->]]])]].
  - reflexivity.
  - by rewrite !predict_without_samples.
  - by rewrite !(predict_samples_no_len lc _ _ _ _ Hm He).
  - by rewrite !(predict_samples_not_list lc _ _ _ _ Hm Hn Hl).
  - rewrite !(predict_samples lc _ _ _ Hm).
    pose proof (predict_loop_of_settled samples st st' 0 [] Hs) as Hloop.
    destruct (predict_loop lc st 0 samples []) as [st1 r1],
             (predict_loop lc st' 0 samples []) as [st2 r2].
    cbn [snd] in Hloop. subst r2. by destruct r1.
Qed.

End HistoryFacts.

(** X17. When [pre_inference] does not look at the descriptors (as when
    there is none), the answer to a request is the same on descriptors
    that differ only by a 1 written for an unknown dimension; so the
    answer to a request does not depend on the requests served before
    it. *)
Theorem answers_do_not_depend_on_history `{Externals} (lc : LocalCache) :
  (∀ sample st1 st2, pre_hook lc st1 sample = pre_hook lc st2 sample) →
  (∀ st st' (get_json : raising json),
     settle <$> st = settle <$> st' →
     (predict lc st get_json).2 = (predict lc st' get_json).2)
  ∧ (∀ st (earlier get_json : raising json),
       (predict lc (predict lc st earlier).1 get_json).2 = (predict lc st get_json).2).
Proof.
  intros Hblind. split.
  - intros st st' get_json. by apply predict_of_settled.
  - intros st earlier get_json. apply predict_of_settled; [exact Hblind|].
    apply predict_settles.
Qed.

Lemma answers_do_not_depend_on_history_witness :
  (predict Sample.cache
     (predict Sample.cache [Sample.x]
        (inr (JObject {[ "samples" := JArray [Sample.vec [1; 2; 3]%Z] ]}))).1
     (inr (JObject {[ "samples" := JArray [Sample.vec [4; 5]%Z] ]}))).2
  = (predict Sample.cache [Sample.x]
       (inr (JObject {[ "samples" := JArray [Sample.vec [4; 5]%Z] ]}))).2.
Proof.
  apply (proj2 (@answers_do_not_depend_on_history Sample.externals Sample.cache
                  (fun _ _ _ => eq_refl))).
Defined.

(** ** A flat sample, there and back *)

Section RoundTrip.
Context `{Externals}.

Lemma np_dims_leaf (v : json) : is_list v = false → np_dims v = Some [].
Proof. by destruct v. Qed.

Lemma np_dims_flat (leaves : list json) :
  Forall (fun v => is_list v = false) leaves →
  np_dims (JArray leaves) = Some [N.of_nat (length leaves)].
Proof.
  intros Hleaves. cbn [np_dims].
  destruct Hleaves as [|v rest Hv Hrest]; [reflexivity|].
  cbn [map]. rewrite (np_dims_leaf v Hv).
  assert (forallb (fun d => bool_decide (d = Some [])) (map np_dims rest) = true) as ->;
    [|reflexivity].
  induction Hrest as [|w rest Hw Hrest IH]; [reflexivity|].
  cbn [map forallb]. rewrite (np_dims_leaf w Hw), IH. reflexivity.
Qed.

Lemma np_leaves_flat (leaves : list json) :
  Forall (fun v => is_list v = false) leaves → np_leaves (JArray leaves) = leaves.
Proof.
  intros Hleaves. cbn [np_leaves].
  induction Hleaves as [|v rest Hv Hrest IH]; [reflexivity|].
  cbn [map concat]. rewrite IH. by destruct v.
Qed.

Lemma mapM_length {A B} (f : A → raising B) (l : list A) (ys : list B) :
  mapM f l = inr ys → length ys = length l.
Proof.
  revert ys. induction l as [|x l IH]; intros ys; cbn [mapM].
  - by intros [= <-].
  - destruct (f x) as [e|y]; [discriminate|]. cbn [rbind].
    destruct (mapM f l) as [e|ys']; [discriminate|]. cbn [rbind ok].
    intros [= <-]. cbn. by rewrite (IH ys').
Qed.

Lemma chunks_singletons (data : list json) :
  map (nest []) (chunks 1 (length data) data) = data.
Proof.
  induction data as [|x data IH]; [reflexivity|].
  change (x :: map (nest []) (chunks 1 (length data) data) = x :: data).
  by rewrite IH.
Qed.

Lemma nest_row (data : list json) :
  nest [1%N; N.of_nat (length data)] data = JArray [JArray data].
Proof.
  cbn [nest product foldr].
  rewrite N.mul_1_r, !Nat2N.id. change (N.to_nat 1) with 1%nat.
  cbn [chunks map]. rewrite firstn_all.
  pose proof (chunks_singletons data) as Hrow. cbn [nest] in Hrow. by rewrite Hrow.
Qed.

End RoundTrip.

(** X18. A flat list of [n] scalars sent to an input declared with the
    shape [[None, n]] (or [[1, n]]), and with a type whose element type
    numpy resolves (any type of the table but [tensor(string)]), is
    coerced whenever its scalars convert, to an array of shape [[1, n]];
    the list form of that array, which is what the view would put into
    [result] for it, is the one row of the converted scalars. *)
Theorem flat_sample_round_trip `{Externals}
    (d : NodeArg) (dt : string) (leaves : list json) (es : list elem) :
  onnx_to_np !! type d = Some dt →
  np_understood dt = true →
  default 1%N <$> shape d = [1%N; N.of_nat (length leaves)] →
  Forall (fun v => is_list v = false) leaves →
  mapM (np_cast dt) leaves = inr es →
  ∃ a : ndarray,
    (transform_to_numpy (FromJson (JArray leaves)) d).2 = inr a
    ∧ arr_shape a = [1%N; N.of_nat (length leaves)]
    ∧ marshal [OutArray a] = [JArray [JArray (elem_tolist <$> es)]].
Proof.
  intros Hty Hdt Hshape Hleaves Hcast.
  pose proof (mapM_length _ _ _ Hcast) as Hlen.
  rewrite (transform_known _ _ _ Hty). cbn [snd]. unfold np_array.
  rewrite Hdt, (np_dims_flat _ Hleaves), (np_leaves_flat _ Hleaves), Hcast. cbn [rbind ok].
  rewrite reshape_fill, Hshape. cbn [arr_data arr_dtype].
  assert ((N.of_nat (length es) =? product [1%N; N.of_nat (length leaves)])%N = true) as ->.
  { apply N.eqb_eq. cbn [product foldr]. rewrite Hlen. lia. }
  eexists. split; [reflexivity|]. split; [reflexivity|].
  cbn [marshal fold_left marshal_step app]. unfold tolist. cbn [arr_shape arr_data].
  by rewrite <- Hlen, <- (length_map elem_tolist es), nest_row.
Qed.

Lemma flat_sample_round_trip_witness :
  ∃ a : @ndarray Sample.externals,
    (transform_to_numpy (FromJson (JArray [JInt 1; JInt 2; JInt 3])) Sample.x).2 = inr a
    ∧ arr_shape a = [1%N; N.of_nat (length [JInt 1; JInt 2; JInt 3])]
    ∧ marshal [OutArray a]
      = [JArray [JArray (@elem_tolist Sample.externals <$> [JInt 1; JInt 2; JInt 3])]].
Proof.
  apply (@flat_sample_round_trip Sample.externals Sample.x "float32"
           [JInt 1; JInt 2; JInt 3] [JInt 1; JInt 2; JInt 3]);
    [reflexivity|reflexivity|reflexivity|repeat constructor|reflexivity].
Defined.

(** ** What the view leaves in the descriptors *)

Section WriteFacts.
Context `{Externals}.
Variable lc : LocalCache.

Lemma written_from_all_refl (l : list NodeArg) : Forall2 written_from l l.
Proof. apply Forall_Forall2_diag, Forall_forall. intros d _. by left. Qed.

Lemma try_sample_descriptors st sample : (try_sample lc st sample).1 = st.
Proof.
  rewrite try_sample_fst.
  destruct (pre_hook lc st sample); [reflexivity|apply convert_descriptors].
Qed.

Lemma predict_loop_descriptors samples st i predictions :
  (predict_loop lc st i samples predictions).1 = st.
Proof.
  revert st i predictions. induction samples as [|sample samples IH]; intros st i predictions.
  - reflexivity.
  - cbn [predict_loop]. pose proof (try_sample_descriptors st sample) as Hs.
    destruct (try_sample lc st sample) as [st' [[bound e]|p]]; cbn [fst] in *; [exact Hs|].
    by rewrite IH.
Qed.

Lemma predict_descriptors st (get_json : raising json) : (predict lc st get_json).1 = st.
Proof.
  destruct (request_cases get_json) as
    [[e ->]|[(payload & -> & Hbad)|(m & v & -> & Hm & [[e He]|[(n & Hn & Hl)|[samples ->]]])]].
  - reflexivity.
  - by rewrite predict_without_samples.
  - by rewrite (predict_samples_no_len lc _ _ _ _ Hm He).
  - by rewrite (predict_samples_not_list lc _ _ _ _ Hm Hn Hl).
  - rewrite (predict_samples lc _ _ _ Hm).
    pose proof (predict_loop_descriptors samples st 0 []) as Hloop.
    by destruct (predict_loop lc st 0 samples []) as [st' [failed|preds]].
Qed.

Lemma predict_written st (get_json : raising json) :
  Forall2 written_from st (predict lc st get_json).1.
Proof. rewrite predict_descriptors. apply written_from_all_refl. Qed.

End WriteFacts.

(** X19. After any request each input descriptor is either as it was, or
    as it was with 1 written for every unknown dimension; so for a model
    whose declared shapes have no unknown dimension the view writes
    nothing: the descriptors are the same after every request. *)
Theorem view_writes_only_unknown_dimensions `{Externals} (lc : LocalCache)
    (input_metadata : list NodeArg) (get_json : raising json) :
  Forall2 written_from input_metadata (predict lc input_metadata get_json).1
  ∧ (Forall (fun d => None ∉ shape d) input_metadata →
     (predict lc input_metadata get_json).1 = input_metadata).
Proof.
  pose proof (predict_written lc input_metadata get_json) as Hw.
  split; [exact Hw|]. intros Hknown.
  symmetry. apply list_eq_Forall2.
  revert Hknown. induction Hw as [|d d' l l' Hd Hl IH]; intros Hknown; [constructor|].
  apply Forall_cons in Hknown as [Hd_known Hl_known].
  constructor; [|by apply IH].
  destruct Hd as [->| ->]; [reflexivity|].
  apply fill_fixed in Hd_known. destruct d as [nm ty s].
  unfold settle, set_shape. cbn in *. by rewrite Hd_known.
Qed.

Lemma view_writes_only_unknown_dimensions_witness :
  (predict Sample.cache [Sample.y] (inr (JObject {[ "samples" := JArray [JInt 5] ]}))).1
  = [Sample.y].
Proof.
  apply (proj2 (@view_writes_only_unknown_dimensions Sample.externals Sample.cache
                  [Sample.y] (inr (JObject {[ "samples" := JArray [JInt 5] ]})))).
  repeat constructor. cbn. intros Hin.
  apply elem_of_cons in Hin as [?|Hin]; [discriminate|]. by apply elem_of_nil in Hin.
Defined.


